(** * soss websocket: the rosbridge v2 encoding

    A shallow embedding of [packages/websocket/src/RosbridgeV2Encoding.hpp]
    and [packages/websocket/src/BsonSerializer.cpp].

    [RosbridgeV2Encoding<Serializer>] decodes an incoming websocket frame
    into one call on an [Endpoint] and encodes six kinds of outgoing events
    into frames.  Exceptions are results of type [Result], the endpoint is
    the log of the calls it received, and the template parameter
    [Serializer] is a record of functions. *)

From Stdlib Require Import String Ascii List ZArith NArith Bool Lia.
From Stdlib Require Import DecimalString OrdersEx Sorted RelationClasses.
Import ListNotations.

Local Open Scope list_scope.
Local Open Scope string_scope.
Local Set Warnings "-register-all".

(** ** The structured value, [json::Json] (an alias of [nlohmann::json])

    The kinds are those of [nlohmann::detail::value_t].  An object is a
    [std::map<std::string, json>]: an association list kept in key order.
    A double is its 64 bit pattern. *)

Inductive Json : Type :=
| JNull
| JObject (members : list (string * Json))
| JArray (elements : list Json)
| JString (s : string)
| JBool (b : bool)
| JInt (i : Z)
| JUInt (u : Z)
| JFloat (bits : Z)
| JBinary (bytes : string) (subtype : option ascii).

(** The exceptions that the code under study can raise.  The numbers are
    the ids nlohmann gives its exceptions. *)
Inductive Exception : Type :=
| parse_error (id : Z)
| type_error (id : Z)
| out_of_range (id : Z)
| runtime_error (what : string)
| MissingRequiredField (key : string).

Inductive Result (A : Type) : Type :=
| OK (a : A)
| Throw (e : Exception).

Arguments OK {A} a.
Arguments Throw {A} e.

Definition Result_bind {A B} (r : Result A) (k : A -> Result B) : Result B :=
  match r with
  | OK a => k a
  | Throw e => Throw e
  end.

Declare Scope result_scope.
Delimit Scope result_scope with result.
Notation "x <- r ;; k" := (Result_bind r (fun x => k))
  (at level 61, r at next level, right associativity) : result_scope.

(** [std::map::find] on the members of an object. *)
Fixpoint members_find (key : string) (ms : list (string * Json)) : option Json :=
  match ms with
  | [] => None
  | (k, v) :: rest => if String.eqb key k then Some v else members_find key rest
  end.

(** [std::map::operator[]] followed by an assignment: the entry of [key] is
    replaced, or a new entry is put at its place in key order. *)
Fixpoint members_assign (key : string) (v : Json) (ms : list (string * Json))
  : list (string * Json) :=
  match ms with
  | [] => [(key, v)]
  | (k, w) :: rest =>
      match String_as_OT.compare key k with
      | Lt => (key, v) :: (k, w) :: rest
      | Eq => (key, v) :: rest
      | Gt => (k, w) :: members_assign key v rest
      end
  end.

(** The members of a [std::map] are in strictly increasing key order. *)
Definition key_lt (a b : string * Json) : Prop :=
  String_as_OT.lt (fst a) (fst b).

Definition members_sorted (ms : list (string * Json)) : Prop :=
  Sorted key_lt ms.

(** [json::find(key)]: the end iterator ([None]) for a value that is not an
    object. *)
Definition Json_find (j : Json) (key : string) : option Json :=
  match j with
  | JObject ms => members_find key ms
  | _ => None
  end.

(** [j.get<std::string>()]: [type_error.302] for a value that is not a
    string. *)
Definition Json_get_string (j : Json) : Result string :=
  match j with
  | JString s => OK s
  | _ => Throw (type_error 302)
  end.

(** [j[key] = v]: a null value becomes an object first; a value that is
    neither null nor an object raises [type_error.305]. *)
Definition Json_assign (j : Json) (key : string) (v : Json) : Result Json :=
  match j with
  | JNull => OK (JObject (members_assign key v []))
  | JObject ms => OK (JObject (members_assign key v ms))
  | _ => Throw (type_error 305)
  end.

(** The names of the members of an object, in the order of the map. *)
Definition Json_keys (j : Json) : list string :=
  match j with
  | JObject ms => map fst ms
  | _ => []
  end.

(** ** The vocabulary

    The eighteen [extern std::string] constants are declared in the header
    and defined in a file that is not part of the sources; section 6 of the
    specification gives their exact values. *)

(** Modelled from the spec: the value of [JsonIdKey] (section 6). *)
Definition JsonIdKey : string := "id".
(** Modelled from the spec: the value of [JsonOpKey] (section 6). *)
Definition JsonOpKey : string := "op".
(** Modelled from the spec: the value of [JsonTopicNameKey] (section 6). *)
Definition JsonTopicNameKey : string := "topic".
(** Modelled from the spec: the value of [JsonTypeNameKey] (section 6). *)
Definition JsonTypeNameKey : string := "type".
(** Modelled from the spec: the value of [JsonMsgKey] (section 6). *)
Definition JsonMsgKey : string := "msg".
(** Modelled from the spec: the value of [JsonServiceKey] (section 6). *)
Definition JsonServiceKey : string := "service".
(** Modelled from the spec: the value of [JsonArgsKey] (section 6). *)
Definition JsonArgsKey : string := "args".
(** Modelled from the spec: the value of [JsonValuesKey] (section 6). *)
Definition JsonValuesKey : string := "values".
(** Modelled from the spec: the value of [JsonResultKey] (section 6). *)
Definition JsonResultKey : string := "result".

(** Modelled from the spec: the value of [JsonOpAdvertiseTopicKey] (section 6). *)
Definition JsonOpAdvertiseTopicKey : string := "advertise".
(** Modelled from the spec: the value of [JsonOpUnadvertiseTopicKey] (section 6). *)
Definition JsonOpUnadvertiseTopicKey : string := "unadvertise".
(** Modelled from the spec: the value of [JsonOpPublishKey] (section 6). *)
Definition JsonOpPublishKey : string := "publish".
(** Modelled from the spec: the value of [JsonOpSubscribeKey] (section 6). *)
Definition JsonOpSubscribeKey : string := "subscribe".
(** Modelled from the spec: the value of [JsonOpUnsubscribeKey] (section 6). *)
Definition JsonOpUnsubscribeKey : string := "unsubscribe".
(** Modelled from the spec: the value of [JsonOpServiceRequestKey] (section 6). *)
Definition JsonOpServiceRequestKey : string := "call_service".
(** Modelled from the spec: the value of [JsonOpAdvertiseServiceKey] (section 6). *)
Definition JsonOpAdvertiseServiceKey : string := "advertise_service".
(** Modelled from the spec: the value of [JsonOpUnadvertiseServiceKey] (section 6). *)
Definition JsonOpUnadvertiseServiceKey : string := "unadvertise_service".
(** Modelled from the spec: the value of [JsonOpServiceResponseKey] (section 6). *)
Definition JsonOpServiceResponseKey : string := "service_response".

(** The nine op strings, in the order in which [interpret_websocket_msg]
    tests them. *)
Definition recognized_ops : list string :=
  [ JsonOpPublishKey; JsonOpServiceRequestKey; JsonOpServiceResponseKey;
    JsonOpAdvertiseTopicKey; JsonOpUnadvertiseTopicKey; JsonOpSubscribeKey;
    JsonOpUnsubscribeKey; JsonOpAdvertiseServiceKey;
    JsonOpUnadvertiseServiceKey ].

(** ** The binary codec: [nlohmann::json::to_bson]

    [BsonSerializer::serialize] is [nlohmann::json::to_bson].  The writer
    below follows nlohmann's [binary_writer::write_bson]: a document is its
    length as a little-endian [int32], its elements and a closing zero byte;
    an element is a type tag, its name as a C string and its payload.  Byte
    sequences ([std::vector<uint8_t>], [std::string]) are strings. *)

Definition byte_of_Z (z : Z) : ascii := ascii_of_N (Z.to_N (z mod 256)).

Fixpoint little_endian (n : nat) (z : Z) : string :=
  match n with
  | O => EmptyString
  | S k => String (byte_of_Z z) (little_endian k (Z.shiftr z 8))
  end.

Definition write_int32 (z : Z) : string := little_endian 4 z.
Definition write_int64 (z : Z) : string := little_endian 8 z.

Definition INT32_MIN : Z := - 2 ^ 31.
Definition INT32_MAX : Z := 2 ^ 31 - 1.
Definition INT64_MAX : Z := 2 ^ 63 - 1.

Fixpoint has_nul (s : string) : bool :=
  match s with
  | EmptyString => false
  | String c rest => Ascii.eqb c zero || has_nul rest
  end.

(** [calc_bson_entry_header_size] refuses a name with a zero byte
    ([out_of_range.409]); the sizes, and so the names, of the whole tree are
    computed before the first byte is written. *)
Fixpoint bson_names_ok (j : Json) : bool :=
  match j with
  | JObject ms =>
      (fix members (ms : list (string * Json)) : bool :=
         match ms with
         | [] => true
         | (k, v) :: rest => negb (has_nul k) && bson_names_ok v && members rest
         end) ms
  | JArray es =>
      (fix elements (es : list Json) : bool :=
         match es with
         | [] => true
         | v :: rest => bson_names_ok v && elements rest
         end) es
  | _ => true
  end.

Definition bson_entry_header (tag : Z) (name : string) : string :=
  String (byte_of_Z tag) (name ++ String zero EmptyString).

Definition bson_document (body : string) : string :=
  write_int32 (Z.of_nat (String.length body) + 5) ++ body ++ String zero EmptyString.

Definition bson_index (i : nat) : string := NilEmpty.string_of_uint (Nat.to_uint i).

Fixpoint write_bson_element (name : string) (j : Json) {struct j} : Result string :=
  match j with
  | JNull => OK (bson_entry_header 0x0A name)
  | JObject ms =>
      (body <- (fix members (ms : list (string * Json)) : Result string :=
                  match ms with
                  | [] => OK EmptyString
                  | (k, v) :: rest =>
                      e <- write_bson_element k v ;;
                      r <- members rest ;;
                      OK (e ++ r)
                  end) ms ;;
       OK (bson_entry_header 0x03 name ++ bson_document body))%result
  | JArray es =>
      (body <- (fix elements (i : nat) (es : list Json) : Result string :=
                  match es with
                  | [] => OK EmptyString
                  | v :: rest =>
                      e <- write_bson_element (bson_index i) v ;;
                      r <- elements (S i) rest ;;
                      OK (e ++ r)
                  end) O es ;;
       OK (bson_entry_header 0x04 name ++ bson_document body))%result
  | JString s =>
      OK (bson_entry_header 0x02 name
            ++ write_int32 (Z.of_nat (String.length s) + 1)
            ++ s ++ String zero EmptyString)
  | JBool b =>
      OK (bson_entry_header 0x08 name
            ++ String (if b then byte_of_Z 1 else zero) EmptyString)
  | JInt i =>
      if (INT32_MIN <=? i)%Z && (i <=? INT32_MAX)%Z
      then OK (bson_entry_header 0x10 name ++ write_int32 i)
      else OK (bson_entry_header 0x12 name ++ write_int64 i)
  | JUInt u =>
      if (u <=? INT32_MAX)%Z
      then OK (bson_entry_header 0x10 name ++ write_int32 u)
      else if (u <=? INT64_MAX)%Z
      then OK (bson_entry_header 0x12 name ++ write_int64 u)
      else Throw (out_of_range 407)
  | JFloat bits => OK (bson_entry_header 0x01 name ++ write_int64 bits)
  | JBinary bytes subtype =>
      OK (bson_entry_header 0x05 name
            ++ write_int32 (Z.of_nat (String.length bytes))
            ++ String (match subtype with Some t => t | None => zero end) bytes)
  end.

(** [to_bson]: the top-level value must be an object ([type_error.317]). *)
Definition to_bson (j : Json) : Result string :=
  match j with
  | JObject ms =>
      if bson_names_ok j then
        (body <- (fix members (ms : list (string * Json)) : Result string :=
                    match ms with
                    | [] => OK EmptyString
                    | (k, v) :: rest =>
                        e <- write_bson_element k v ;;
                        r <- members rest ;;
                        OK (e ++ r)
                    end) ms ;;
         OK (bson_document body))%result
      else Throw (out_of_range 409)
  | _ => Throw (type_error 317)
  end.

(** ** The text reader: what is assumed of [json::Json::parse]

    The parser is not modelled; it is a parameter of the decoder.  The one
    fact used about it (and only for frames of the binary codec) is that a
    JSON text, after an optional byte order mark and white space, begins
    with the first byte of a JSON value. *)

Definition is_json_whitespace (c : ascii) : bool :=
  Ascii.eqb c " " || Ascii.eqb c (ascii_of_nat 9)
  || Ascii.eqb c (ascii_of_nat 10) || Ascii.eqb c (ascii_of_nat 13).

Fixpoint skip_whitespace (s : string) : string :=
  match s with
  | String c rest => if is_json_whitespace c then skip_whitespace rest else s
  | EmptyString => s
  end.

Definition skip_bom (s : string) : string :=
  match s with
  | String a (String b (String c rest)) =>
      if Ascii.eqb a (ascii_of_nat 239) && Ascii.eqb b (ascii_of_nat 187)
         && Ascii.eqb c (ascii_of_nat 191)
      then rest else s
  | _ => s
  end.

Definition is_digit (c : ascii) : bool :=
  (48 <=? nat_of_ascii c)%nat && (nat_of_ascii c <=? 57)%nat.

Definition begins_json_value (c : ascii) : bool :=
  Ascii.eqb c "{" || Ascii.eqb c "[" || Ascii.eqb c (ascii_of_nat 34)
  || Ascii.eqb c "-" || is_digit c
  || Ascii.eqb c "t" || Ascii.eqb c "f" || Ascii.eqb c "n".

Definition looks_like_json_text (s : string) : bool :=
  match skip_whitespace (skip_bom s) with
  | String c _ => begins_json_value c
  | EmptyString => false
  end.

Definition rejects_non_json (parse : string -> Result Json) : Prop :=
  forall s, looks_like_json_text s = false -> parse s = Throw (parse_error 101).

(** ** The template parameter [Serializer]

    A serializer has a [serialize] and a [deserialize] method.
    [BsonSerializer.cpp] defines them as [to_bson] and [from_bson]; the
    reader [from_bson] is a parameter. *)

Record Serializer : Type := {
  serialize : Json -> Result string;
  deserialize : string -> Result Json
}.

Definition BsonSerializer (from_bson : string -> Result Json) : Serializer :=
  {| serialize := to_bson; deserialize := from_bson |}.

(** ** Sample frames

    JSON texts and the values they stand for.  The table serves as a reader
    of JSON text in the examples; a text is written with ['] in place of the
    double quote. *)

Definition double_quote : ascii := ascii_of_nat 34.

Fixpoint json_text (s : string) : string :=
  match s with
  | EmptyString => EmptyString
  | String c rest =>
      String (if Ascii.eqb c "'" then double_quote else c) (json_text rest)
  end.

Definition sample_frames : list (string * Json) :=
  [ (json_text "{'op':'publish','topic':'chatter','msg':{'data':'hello'}}",
     JObject [("msg", JObject [("data", JString "hello")]);
              ("op", JString "publish"); ("topic", JString "chatter")]);
    (json_text "{'op':'call_service','service':'add_two_ints','args':{'a':1,'b':2}}",
     JObject [("args", JObject [("a", JUInt 1); ("b", JUInt 2)]);
              ("op", JString "call_service"); ("service", JString "add_two_ints")]);
    (json_text "{'op':'service_response','service':'add_two_ints','values':{'sum':3}}",
     JObject [("op", JString "service_response"); ("service", JString "add_two_ints");
              ("values", JObject [("sum", JUInt 3)])]);
    (json_text "{'op':'advertise','topic':'chatter','type':'std_msgs/String'}",
     JObject [("op", JString "advertise"); ("topic", JString "chatter");
              ("type", JString "std_msgs/String")]);
    (json_text "{'op':'unadvertise','topic':'chatter'}",
     JObject [("op", JString "unadvertise"); ("topic", JString "chatter")]);
    (json_text "{'op':'subscribe','topic':'scan'}",
     JObject [("op", JString "subscribe"); ("topic", JString "scan")]);
    (json_text "{'op':'unsubscribe','topic':'scan'}",
     JObject [("op", JString "unsubscribe"); ("topic", JString "scan")]);
    (json_text "{'op':'advertise_service','service':'add_two_ints','type':'my_pkg/AddTwoInts'}",
     JObject [("op", JString "advertise_service"); ("service", JString "add_two_ints");
              ("type", JString "my_pkg/AddTwoInts")]);
    (json_text "{'op':'unadvertise_service','service':'add_two_ints'}",
     JObject [("op", JString "unadvertise_service"); ("service", JString "add_two_ints")]);
    (json_text "{'topic':'chatter'}",
     JObject [("topic", JString "chatter")]);
    (json_text "[1,2]",
     JArray [JUInt 1; JUInt 2]);
    (json_text "{'op':'ping'}",
     JObject [("op", JString "ping")]);
    (json_text "{'op':'publish','topic':'chatter'}",
     JObject [("op", JString "publish"); ("topic", JString "chatter")]);
    (json_text "{'op':7,'topic':'chatter'}",
     JObject [("op", JUInt 7); ("topic", JString "chatter")]);
    (json_text "{'op':'subscribe','topic':'scan','type':'sensor_msgs/LaserScan','id':'sub1'}",
     JObject [("id", JString "sub1"); ("op", JString "subscribe");
              ("topic", JString "scan"); ("type", JString "sensor_msgs/LaserScan")]) ].

Definition sample_parse (s : string) : Result Json :=
  match members_find s sample_frames with
  | Some j => OK j
  | None => Throw (parse_error 101)
  end.

(** More texts: two frames that carry an op code and nothing else, and a
    frame with a field that is not in the vocabulary. *)
Definition more_frames : list (string * Json) :=
  [ (json_text "{'op':'publish'}", JObject [("op", JString "publish")]);
    (json_text "{'op':'advertise_service'}",
     JObject [("op", JString "advertise_service")]);
    (json_text "{'op':'unsubscribe','topic':'scan','compression':'none'}",
     JObject [("compression", JString "none"); ("op", JString "unsubscribe");
              ("topic", JString "scan")]) ].

Definition more_parse (s : string) : Result Json :=
  match members_find s (sample_frames ++ more_frames)%list with
  | Some j => OK j
  | None => Throw (parse_error 101)
  end.

(** [std::string::empty]. *)
Definition empty (s : string) : bool :=
  match s with
  | EmptyString => true
  | String _ _ => false
  end.

(** C++ leaves the order in which the arguments of a call are evaluated to
    the compiler.  The getters below have no effect but may throw, so the
    order decides which exception is seen when two arguments throw. *)
Inductive ArgumentOrder : Type :=
| LeftToRight
| RightToLeft.

(** ** [RosbridgeV2Encoding<Serializer>] *)

Section RosbridgeV2Encoding.

(** [soss::Message], [std::shared_ptr<void>] and [YAML::Node] are opaque. *)
Variable Message : Type.
Variable Handle : Type.
Variable YamlNode : Type.

(** [soss::json::convert], from a message to a value and back. *)
Variable json_convert : Message -> Json.
Variable json_convert_message : Json -> Message.

(** [json::Json::parse], the reader of JSON text. *)
Variable Json_parse : string -> Result Json.

Variable argument_order : ArgumentOrder.

(** The nine methods of [Endpoint] that the decoder calls. *)
Inductive EndpointCall : Type :=
| receive_publication_ws (topic : string) (msg : Message) (h : Handle)
| receive_service_request_ws (service : string) (args : Message) (id : string) (h : Handle)
| receive_service_response_ws (service : string) (values : Message) (id : string) (h : Handle)
| receive_topic_advertisement_ws (topic type id : string) (h : Handle)
| receive_topic_unadvertisement_ws (topic id : string) (h : Handle)
| receive_subscribe_request_ws (topic type id : string) (h : Handle)
| receive_unsubscribe_request_ws (topic id : string) (h : Handle)
| receive_service_advertisement_ws (service type : string) (h : Handle)
| receive_service_unadvertisement_ws (service type : string) (h : Handle).

(** An endpoint is observed through the calls it has received, oldest
    first. *)
Definition Endpoint : Type := list EndpointCall.

(** A computation that may call the endpoint and may throw: it returns its
    result and the endpoint as it is when the computation ends. *)
Definition Action (A : Type) : Type := Endpoint -> Result A * Endpoint.

Definition Action_ret {A} (a : A) : Action A := fun ep => (OK a, ep).

Definition Action_bind {A B} (c : Action A) (k : A -> Action B) : Action B :=
  fun ep =>
    match c ep with
    | (OK a, ep') => k a ep'
    | (Throw e, ep') => (Throw e, ep')
    end.

Definition lift {A} (r : Result A) : Action A := fun ep => (r, ep).

Definition invoke (c : EndpointCall) : Action unit :=
  fun ep => (OK tt, (ep ++ [c])%list).

Definition eval_args2 {A B} (a : Result A) (b : Result B) : Result (A * B) :=
  match argument_order with
  | LeftToRight => (x <- a ;; y <- b ;; OK (x, y))%result
  | RightToLeft => (y <- b ;; x <- a ;; OK (x, y))%result
  end.

Definition eval_args3 {A B C} (a : Result A) (b : Result B) (c : Result C)
  : Result (A * B * C) :=
  match argument_order with
  | LeftToRight => (x <- a ;; y <- b ;; z <- c ;; OK (x, y, z))%result
  | RightToLeft => (z <- c ;; y <- b ;; x <- a ;; OK (x, y, z))%result
  end.

(** Modelled from the spec: [throw_missing_key] is declared in the header and
    its body is not part of the sources; section 4.2, step 4, names the
    failure [MissingRequiredField(fieldName)]. *)
Definition throw_missing_key {A} (object : Json) (key : string) : Result A :=
  Throw (MissingRequiredField key).

(** Modelled from the spec: [get_optional_string] is declared in the header
    and its body is not part of the sources; section 4.2, step 4: an optional
    field is replaced by the empty string when absent.  A field that is
    present is read as [interpret_websocket_msg] reads the op code, with
    [get<std::string>()]. *)
Definition get_optional_string (object : Json) (key : string) : Result string :=
  match Json_find object key with
  | None => OK ""
  | Some v => Json_get_string v
  end.

(** Modelled from the spec: [get_required_string] is declared in the header
    and its body is not part of the sources; section 4.2, step 4: a required
    field fails with [MissingRequiredField(fieldName)] when absent. *)
Definition get_required_string (object : Json) (key : string) : Result string :=
  match Json_find object key with
  | None => throw_missing_key object key
  | Some v => Json_get_string v
  end.

(** Modelled from the spec: [get_required_msg] is declared in the header and
    its body is not part of the sources; section 4.2, step 4, and section 6:
    the field fails with [MissingRequiredField(fieldName)] when absent, and
    its value is handed to the message conversion. *)
Definition get_required_msg (object : Json) (key : string) : Result Message :=
  match Json_find object key with
  | None => throw_missing_key object key
  | Some v => OK (json_convert_message v)
  end.

(** The text of the [std::runtime_error] raised for a frame without op
    code. *)
Definition missing_op_code_what (msg_str : string) : string :=
  ("[soss::websocket::rosbridge_v2] Incoming message was missing "
   ++ "the required op code: ") ++ msg_str.

Definition MissingOpCode (msg_str : string) : Exception :=
  runtime_error (missing_op_code_what msg_str).

Declare Scope action_scope.
Delimit Scope action_scope with action.
Notation "x <- c ;; k" := (Action_bind c (fun x => k))
  (at level 61, c at next level, right associativity) : action_scope.

(** Lines 87 to 176: the dispatch on the parsed frame [msg]. *)
Definition dispatch_websocket_msg (msg_str : string) (msg : Json)
  (connection_handle : Handle) : Action unit :=
  match Json_find msg JsonOpKey with
  | None => lift (Throw (MissingOpCode msg_str))
  | Some op_value =>
    (op_str <- lift (Json_get_string op_value) ;;
     if op_str =? JsonOpPublishKey then
       a <- lift (eval_args2 (get_required_string msg JsonTopicNameKey)
                             (get_required_msg msg JsonMsgKey)) ;;
       invoke (receive_publication_ws (fst a) (snd a) connection_handle)
     else if op_str =? JsonOpServiceRequestKey then
       a <- lift (eval_args3 (get_required_string msg JsonServiceKey)
                             (get_required_msg msg JsonArgsKey)
                             (get_optional_string msg JsonIdKey)) ;;
       invoke (receive_service_request_ws
                 (fst (fst a)) (snd (fst a)) (snd a) connection_handle)
     else if op_str =? JsonOpServiceResponseKey then
       a <- lift (eval_args3 (get_required_string msg JsonServiceKey)
                             (get_required_msg msg JsonValuesKey)
                             (get_optional_string msg JsonIdKey)) ;;
       invoke (receive_service_response_ws
                 (fst (fst a)) (snd (fst a)) (snd a) connection_handle)
     else if op_str =? JsonOpAdvertiseTopicKey then
       a <- lift (eval_args3 (get_required_string msg JsonTopicNameKey)
                             (get_required_string msg JsonTypeNameKey)
                             (get_optional_string msg JsonIdKey)) ;;
       invoke (receive_topic_advertisement_ws
                 (fst (fst a)) (snd (fst a)) (snd a) connection_handle)
     else if op_str =? JsonOpUnadvertiseTopicKey then
       a <- lift (eval_args2 (get_required_string msg JsonTopicNameKey)
                             (get_optional_string msg JsonIdKey)) ;;
       invoke (receive_topic_unadvertisement_ws (fst a) (snd a) connection_handle)
     else if op_str =? JsonOpSubscribeKey then
       a <- lift (eval_args3 (get_required_string msg JsonTopicNameKey)
                             (get_optional_string msg JsonTypeNameKey)
                             (get_optional_string msg JsonIdKey)) ;;
       invoke (receive_subscribe_request_ws
                 (fst (fst a)) (snd (fst a)) (snd a) connection_handle)
     else if op_str =? JsonOpUnsubscribeKey then
       a <- lift (eval_args2 (get_required_string msg JsonTopicNameKey)
                             (get_optional_string msg JsonIdKey)) ;;
       invoke (receive_unsubscribe_request_ws (fst a) (snd a) connection_handle)
     else if op_str =? JsonOpAdvertiseServiceKey then
       a <- lift (eval_args2 (get_required_string msg JsonServiceKey)
                             (get_required_string msg JsonTypeNameKey)) ;;
       invoke (receive_service_advertisement_ws (fst a) (snd a) connection_handle)
     else if op_str =? JsonOpUnadvertiseServiceKey then
       a <- lift (eval_args2 (get_required_string msg JsonServiceKey)
                             (get_optional_string msg JsonTypeNameKey)) ;;
       invoke (receive_service_unadvertisement_ws (fst a) (snd a) connection_handle)
     else Action_ret tt)%action
  end.

(** [interpret_websocket_msg]: line 85 parses the frame as JSON text,
    whatever the serializer of the encoding is; the rest dispatches. *)
Definition interpret_websocket_msg (msg_str : string)
  (connection_handle : Handle) : Action unit :=
  (msg <- lift (Json_parse msg_str) ;;
   dispatch_websocket_msg msg_str msg connection_handle)%action.

(** The value of [output] in [encode_publication_msg] when it is handed to
    the serializer. *)
Definition encode_publication_output (topic_name id : string) (msg : Message)
  : Result Json :=
  (output <- Json_assign JNull JsonOpKey (JString JsonOpPublishKey) ;;
   output <- Json_assign output JsonTopicNameKey (JString topic_name) ;;
   output <- Json_assign output JsonMsgKey (json_convert msg) ;;
   if negb (empty id)
   then Json_assign output JsonIdKey (JString id)
   else OK output)%result.

Definition encode_publication_msg (serializer : Serializer)
  (topic_name topic_type id : string) (msg : Message) : Result string :=
  (output <- encode_publication_output topic_name id msg ;;
   serialize serializer output)%result.

(** The value of [output] in [encode_service_response_msg]. *)
Definition encode_service_response_output (service_name id : string)
  (response : Message) (result : bool) : Result Json :=
  (output <- Json_assign JNull JsonOpKey (JString JsonOpServiceResponseKey) ;;
   output <- Json_assign output JsonServiceKey (JString service_name) ;;
   output <- Json_assign output JsonValuesKey (json_convert response) ;;
   output <- Json_assign output JsonResultKey (JBool result) ;;
   if negb (empty id)
   then Json_assign output JsonIdKey (JString id)
   else OK output)%result.

Definition encode_service_response_msg (serializer : Serializer)
  (service_name service_type id : string) (response : Message) (result : bool)
  : Result string :=
  (output <- encode_service_response_output service_name id response result ;;
   serialize serializer output)%result.

(** The value of [output] in [encode_subscribe_msg]. *)
Definition encode_subscribe_output (topic_name message_type id : string)
  : Result Json :=
  (output <- Json_assign JNull JsonOpKey (JString JsonOpSubscribeKey) ;;
   output <- Json_assign output JsonTopicNameKey (JString topic_name) ;;
   output <- Json_assign output JsonTypeNameKey (JString message_type) ;;
   if negb (empty id)
   then Json_assign output JsonIdKey (JString id)
   else OK output)%result.

Definition encode_subscribe_msg (serializer : Serializer)
  (topic_name message_type id : string) (configuration : YamlNode)
  : Result string :=
  (output <- encode_subscribe_output topic_name message_type id ;;
   serialize serializer output)%result.

(** The value of [output] in [encode_advertise_msg]. *)
Definition encode_advertise_output (topic_name message_type id : string)
  : Result Json :=
  (output <- Json_assign JNull JsonOpKey (JString JsonOpAdvertiseTopicKey) ;;
   output <- Json_assign output JsonTopicNameKey (JString topic_name) ;;
   output <- Json_assign output JsonTypeNameKey (JString message_type) ;;
   if negb (empty id)
   then Json_assign output JsonIdKey (JString id)
   else OK output)%result.

Definition encode_advertise_msg (serializer : Serializer)
  (topic_name message_type id : string) (configuration : YamlNode)
  : Result string :=
  (output <- encode_advertise_output topic_name message_type id ;;
   serialize serializer output)%result.

(** The value of [output] in [encode_call_service_msg]. *)
Definition encode_call_service_output (service_name : string)
  (service_request : Message) (id : string) : Result Json :=
  (output <- Json_assign JNull JsonOpKey (JString JsonOpServiceRequestKey) ;;
   output <- Json_assign output JsonServiceKey (JString service_name) ;;
   output <- Json_assign output JsonArgsKey (json_convert service_request) ;;
   if negb (empty id)
   then Json_assign output JsonIdKey (JString id)
   else OK output)%result.

Definition encode_call_service_msg (serializer : Serializer)
  (service_name service_type : string) (service_request : Message)
  (id : string) (configuration : YamlNode) : Result string :=
  (output <- encode_call_service_output service_name service_request id ;;
   serialize serializer output)%result.

(** The value of [output] in [encode_advertise_service_msg]: the [id]
    argument has no name in the source and is not read. *)
Definition encode_advertise_service_output (service_name service_type id : string)
  : Result Json :=
  (output <- Json_assign JNull JsonOpKey (JString JsonOpAdvertiseServiceKey) ;;
   output <- Json_assign output JsonTypeNameKey (JString service_type) ;;
   output <- Json_assign output JsonServiceKey (JString service_name) ;;
   OK output)%result.

Definition encode_advertise_service_msg (serializer : Serializer)
  (service_name service_type id : string) (configuration : YamlNode)
  : Result string :=
  (output <- encode_advertise_service_output service_name service_type id ;;
   serialize serializer output)%result.

(** Properties of a frame: a field holds a string, a field is absent, a frame
    is decoded into one call. *)
Definition holds_string (msg : Json) (key value : string) : Prop :=
  Json_find msg key = Some (JString value).

Definition lacks (msg : Json) (key : string) : Prop :=
  Json_find msg key = None.

Definition decodes_to (msg_str : string) (call : Handle -> EndpointCall) : Prop :=
  forall h ep,
    interpret_websocket_msg msg_str h ep = (OK tt, (ep ++ [call h])%list).

(** The connection handle that a call carries. *)
Definition call_handle (c : EndpointCall) : Handle :=
  match c with
  | receive_publication_ws _ _ h
  | receive_service_request_ws _ _ _ h
  | receive_service_response_ws _ _ _ h
  | receive_topic_advertisement_ws _ _ _ h
  | receive_topic_unadvertisement_ws _ _ h
  | receive_subscribe_request_ws _ _ _ h
  | receive_unsubscribe_request_ws _ _ h
  | receive_service_advertisement_ws _ _ h
  | receive_service_unadvertisement_ws _ _ h => h
  end.

(** The op code in whose branch [interpret_websocket_msg] calls a method. *)
Definition call_op (c : EndpointCall) : string :=
  match c with
  | receive_publication_ws _ _ _ => JsonOpPublishKey
  | receive_service_request_ws _ _ _ _ => JsonOpServiceRequestKey
  | receive_service_response_ws _ _ _ _ => JsonOpServiceResponseKey
  | receive_topic_advertisement_ws _ _ _ _ => JsonOpAdvertiseTopicKey
  | receive_topic_unadvertisement_ws _ _ _ => JsonOpUnadvertiseTopicKey
  | receive_subscribe_request_ws _ _ _ _ => JsonOpSubscribeKey
  | receive_unsubscribe_request_ws _ _ _ => JsonOpUnsubscribeKey
  | receive_service_advertisement_ws _ _ _ => JsonOpAdvertiseServiceKey
  | receive_service_unadvertisement_ws _ _ _ => JsonOpUnadvertiseServiceKey
  end.

(** The keys that the branch of an op code hands to [get_required_string]
    and [get_required_msg], in the order of the arguments. *)
Definition required_fields (op : string) : list string :=
  if op =? JsonOpPublishKey then [JsonTopicNameKey; JsonMsgKey]
  else if op =? JsonOpServiceRequestKey then [JsonServiceKey; JsonArgsKey]
  else if op =? JsonOpServiceResponseKey then [JsonServiceKey; JsonValuesKey]
  else if op =? JsonOpAdvertiseTopicKey then [JsonTopicNameKey; JsonTypeNameKey]
  else if op =? JsonOpUnadvertiseTopicKey then [JsonTopicNameKey]
  else if op =? JsonOpSubscribeKey then [JsonTopicNameKey]
  else if op =? JsonOpUnsubscribeKey then [JsonTopicNameKey]
  else if op =? JsonOpAdvertiseServiceKey then [JsonServiceKey; JsonTypeNameKey]
  else if op =? JsonOpUnadvertiseServiceKey then [JsonServiceKey]
  else [].

(** The keys that [interpret_websocket_msg] looks up in a frame. *)
Definition decoder_fields : list string :=
  [ JsonOpKey; JsonTopicNameKey; JsonMsgKey; JsonServiceKey; JsonArgsKey;
    JsonIdKey; JsonValuesKey; JsonTypeNameKey ].

(** The keys that the encoders assign. *)
Definition encoder_fields : list string :=
  [ JsonOpKey; JsonTopicNameKey; JsonMsgKey; JsonIdKey; JsonServiceKey;
    JsonValuesKey; JsonResultKey; JsonTypeNameKey; JsonArgsKey ].

(** An optional field as the endpoint sees it: the string the field holds,
    or the empty string when the frame has no such field. *)
Definition field_or_empty (msg : Json) (key value : string) : Prop :=
  (lacks msg key /\ value = "") \/ holds_string msg key value.

(** ** The object as a map

    The association list behaves as [std::map] does: an assignment is seen
    by [find] at its key and at no other key, and it keeps the key order. *)

Lemma members_find_assign_same key v ms :
  members_find key (members_assign key v ms) = Some v.
Proof.
  induction ms as [|[k w] rest IH]; cbn.
  - now rewrite String.eqb_refl.
  - destruct (String_as_OT.compare_spec key k) as [Heq | Hlt | Hgt]; cbn.
    + now rewrite String.eqb_refl.
    + now rewrite String.eqb_refl.
    + destruct (String.eqb_spec key k) as [-> | _]; [|exact IH].
      now apply (irreflexivity (R := String_as_OT.lt)) in Hgt.
Qed.

Lemma members_find_assign_other key key' v ms :
  key' <> key ->
  members_find key' (members_assign key v ms) = members_find key' ms.
Proof.
  intros Hneq.
  induction ms as [|[k w] rest IH]; cbn.
  - now apply String.eqb_neq in Hneq as ->.
  - destruct (String_as_OT.compare_spec key k) as [Heq | Hlt | Hgt]; cbn.
    + change (key = k) in Heq. subst k.
      now apply String.eqb_neq in Hneq as ->.
    + now apply String.eqb_neq in Hneq as ->.
    + now rewrite IH.
Qed.

Lemma members_assign_head key v ms a :
  key_lt a (key, v) -> HdRel key_lt a ms ->
  HdRel key_lt a (members_assign key v ms).
Proof.
  intros Hkey Hhd.
  destruct ms as [|[k w] rest]; cbn.
  - now constructor.
  - destruct (String_as_OT.compare key k); constructor;
      solve [exact Hkey | now inversion Hhd].
Qed.

Lemma members_assign_sorted key v ms :
  members_sorted ms -> members_sorted (members_assign key v ms).
Proof.
  unfold members_sorted.
  induction 1 as [|[k w] rest Hsorted IH Hhd]; cbn.
  - repeat constructor.
  - destruct (String_as_OT.compare_spec key k) as [Heq | Hlt | Hgt].
    + change (key = k) in Heq. subst k.
      constructor; [exact Hsorted|].
      destruct Hhd as [|[k' w'] rest' Hhd]; constructor. exact Hhd.
    + constructor; [now constructor | now constructor].
    + constructor; [exact IH | now apply members_assign_head].
Qed.

Lemma Json_assign_find_same j key v j' :
  Json_assign j key v = OK j' -> Json_find j' key = Some v.
Proof.
  destruct j; cbn; intros [= <-]; cbn;
    [now rewrite String.eqb_refl | apply members_find_assign_same].
Qed.

Lemma Json_assign_find_other j key key' v j' :
  Json_assign j key v = OK j' -> key' <> key ->
  Json_find j' key' = Json_find j key'.
Proof.
  destruct j; cbn; intros [= <-] Hneq; cbn;
    [now apply String.eqb_neq in Hneq as -> | now apply members_find_assign_other].
Qed.

(** ** The decoder *)

Lemma interpret_parsed msg_str msg h ep :
  Json_parse msg_str = OK msg ->
  interpret_websocket_msg msg_str h ep = dispatch_websocket_msg msg_str msg h ep.
Proof.
  intros Hparse. unfold interpret_websocket_msg, Action_bind, lift.
  now rewrite Hparse.
Qed.

Lemma interpret_not_parsed msg_str e h ep :
  Json_parse msg_str = Throw e ->
  interpret_websocket_msg msg_str h ep = (Throw e, ep).
Proof.
  intros Hparse. unfold interpret_websocket_msg, Action_bind, lift.
  now rewrite Hparse.
Qed.

Ltac unfold_keys :=
  unfold JsonIdKey, JsonOpKey, JsonTopicNameKey, JsonTypeNameKey, JsonMsgKey,
    JsonServiceKey, JsonArgsKey, JsonValuesKey in *.

Ltac use_fields :=
  unfold holds_string, lacks in *; unfold_keys;
  repeat match goal with
         | H : Json_find _ _ = _ |- _ => rewrite H; clear H
         end.

Ltac dispatch :=
  unfold dispatch_websocket_msg, Action_bind, lift, invoke, Action_ret,
    eval_args2, eval_args3, get_required_string, get_required_msg,
    get_optional_string, throw_missing_key;
  use_fields; cbn;
  use_fields; cbn;
  try (destruct argument_order; reflexivity).

(** C2: a frame whose value has no "op" field is refused with the
    missing-op-code error, whose text ends with the frame itself, and the
    endpoint receives no call. *)
Theorem C2_missing_op_code :
  forall (msg_str : string) (msg : Json) (h : Handle) (ep : Endpoint),
    Json_parse msg_str = OK msg ->
    Json_find msg "op" = None ->
    interpret_websocket_msg msg_str h ep = (Throw (MissingOpCode msg_str), ep)
    /\ exists prefix, MissingOpCode msg_str = runtime_error (prefix ++ msg_str).
Proof.
  intros msg_str msg h ep Hparse Hop. split.
  - rewrite (interpret_parsed _ _ _ _ Hparse). dispatch.
  - unfold MissingOpCode, missing_op_code_what. eexists. reflexivity.
Qed.

(** No op string outside [recognized_ops] passes one of the nine tests. *)
Lemma unrecognized_op_tests op_str :
  ~ In op_str recognized_ops ->
  (op_str =? JsonOpPublishKey) = false
  /\ (op_str =? JsonOpServiceRequestKey) = false
  /\ (op_str =? JsonOpServiceResponseKey) = false
  /\ (op_str =? JsonOpAdvertiseTopicKey) = false
  /\ (op_str =? JsonOpUnadvertiseTopicKey) = false
  /\ (op_str =? JsonOpSubscribeKey) = false
  /\ (op_str =? JsonOpUnsubscribeKey) = false
  /\ (op_str =? JsonOpAdvertiseServiceKey) = false
  /\ (op_str =? JsonOpUnadvertiseServiceKey) = false.
Proof.
  intros Hnot.
  repeat split; apply String.eqb_neq; intros ->; apply Hnot;
    unfold recognized_ops; simpl; tauto.
Qed.

(** C3: a frame whose "op" field holds a string that is none of the nine op
    strings is accepted, and the endpoint receives no call. *)
Theorem C3_unknown_op_ignored :
  forall (msg_str : string) (msg : Json) (op_str : string)
         (h : Handle) (ep : Endpoint),
    Json_parse msg_str = OK msg ->
    Json_find msg "op" = Some (JString op_str) ->
    ~ In op_str recognized_ops ->
    interpret_websocket_msg msg_str h ep = (OK tt, ep).
Proof.
  intros msg_str msg op_str h ep Hparse Hop Hnot.
  rewrite (interpret_parsed _ _ _ _ Hparse).
  destruct (unrecognized_op_tests op_str Hnot)
    as (H1 & H2 & H3 & H4 & H5 & H6 & H7 & H8 & H9).
  unfold dispatch_websocket_msg, Action_bind, lift, Action_ret. unfold_keys.
  rewrite Hop. cbn [Json_get_string].
  now rewrite H1, H2, H3, H4, H5, H6, H7, H8, H9.
Qed.

(** C4: a publish frame with a "topic" field (a string) and no "msg" field
    is refused with [MissingRequiredField "msg"], and the endpoint receives
    no call. *)
Theorem C4_publish_without_msg :
  forall (msg_str : string) (msg : Json) (topic : string)
         (h : Handle) (ep : Endpoint),
    Json_parse msg_str = OK msg ->
    Json_find msg "op" = Some (JString "publish") ->
    Json_find msg "topic" = Some (JString topic) ->
    Json_find msg "msg" = None ->
    interpret_websocket_msg msg_str h ep = (Throw (MissingRequiredField "msg"), ep).
Proof.
  intros msg_str msg topic h ep Hparse Hop Htopic Hmsg.
  rewrite (interpret_parsed _ _ _ _ Hparse). dispatch.
Qed.

(** Whatever the "topic" field holds, a publish frame without "msg" is
    refused and the endpoint receives no call; the exception is the missing
    "msg" when the arguments are evaluated from the right. *)
Lemma publish_without_msg_any_topic :
  forall (msg_str : string) (msg v : Json) (h : Handle) (ep : Endpoint),
    Json_parse msg_str = OK msg ->
    Json_find msg "op" = Some (JString "publish") ->
    Json_find msg "topic" = Some v ->
    Json_find msg "msg" = None ->
    (exists e, interpret_websocket_msg msg_str h ep = (Throw e, ep))
    /\ (argument_order = RightToLeft ->
        interpret_websocket_msg msg_str h ep
        = (Throw (MissingRequiredField "msg"), ep)).
Proof.
  intros msg_str msg v h ep Hparse Hop Htopic Hmsg.
  rewrite (interpret_parsed _ _ _ _ Hparse).
  unfold dispatch_websocket_msg, Action_bind, lift, eval_args2,
    get_required_string, get_required_msg, throw_missing_key.
  unfold_keys. rewrite Hop, Htopic, Hmsg. cbn.
  split.
  - destruct argument_order, v; cbn; eexists; reflexivity.
  - intros ->. reflexivity.
Qed.

(** C10: a frame whose "op" field holds a value that is not a string is
    refused with the type error of [get<std::string>()]; it is not taken for
    an unknown op string, and the endpoint receives no call. *)
Theorem C10_op_not_a_string :
  forall (msg_str : string) (msg op_value : Json) (h : Handle) (ep : Endpoint),
    Json_parse msg_str = OK msg ->
    Json_find msg "op" = Some op_value ->
    (forall s, op_value <> JString s) ->
    interpret_websocket_msg msg_str h ep = (Throw (type_error 302), ep)
    /\ interpret_websocket_msg msg_str h ep <> (OK tt, ep).
Proof.
  intros msg_str msg op_value h ep Hparse Hop Hnot.
  rewrite (interpret_parsed _ _ _ _ Hparse).
  unfold dispatch_websocket_msg, Action_bind, lift. unfold_keys.
  rewrite Hop.
  destruct op_value; cbn; try (split; [reflexivity | discriminate]).
  now destruct (Hnot s).
Qed.

(** C1: for each of the nine op strings, a frame that holds the required
    fields of the op and none of its optional fields is decoded into exactly
    one call, the one of the table of section 4.2: the required strings are
    passed as they are, a required message is passed as the message
    conversion makes it, and each absent optional field is the empty
    string. *)
Theorem C1_required_fields_give_one_call :
  forall (msg_str : string) (msg : Json),
    Json_parse msg_str = OK msg ->
    (forall topic m,
        holds_string msg "op" "publish" ->
        holds_string msg "topic" topic ->
        Json_find msg "msg" = Some m ->
        decodes_to msg_str
          (receive_publication_ws topic (json_convert_message m)))
    /\ (forall service args,
        holds_string msg "op" "call_service" ->
        holds_string msg "service" service ->
        Json_find msg "args" = Some args ->
        lacks msg "id" ->
        decodes_to msg_str
          (receive_service_request_ws service (json_convert_message args) ""))
    /\ (forall service values,
        holds_string msg "op" "service_response" ->
        holds_string msg "service" service ->
        Json_find msg "values" = Some values ->
        lacks msg "id" ->
        decodes_to msg_str
          (receive_service_response_ws service (json_convert_message values) ""))
    /\ (forall topic type,
        holds_string msg "op" "advertise" ->
        holds_string msg "topic" topic ->
        holds_string msg "type" type ->
        lacks msg "id" ->
        decodes_to msg_str (receive_topic_advertisement_ws topic type ""))
    /\ (forall topic,
        holds_string msg "op" "unadvertise" ->
        holds_string msg "topic" topic ->
        lacks msg "id" ->
        decodes_to msg_str (receive_topic_unadvertisement_ws topic ""))
    /\ (forall topic,
        holds_string msg "op" "subscribe" ->
        holds_string msg "topic" topic ->
        lacks msg "type" ->
        lacks msg "id" ->
        decodes_to msg_str (receive_subscribe_request_ws topic "" ""))
    /\ (forall topic,
        holds_string msg "op" "unsubscribe" ->
        holds_string msg "topic" topic ->
        lacks msg "id" ->
        decodes_to msg_str (receive_unsubscribe_request_ws topic ""))
    /\ (forall service type,
        holds_string msg "op" "advertise_service" ->
        holds_string msg "service" service ->
        holds_string msg "type" type ->
        decodes_to msg_str (receive_service_advertisement_ws service type))
    /\ (forall service,
        holds_string msg "op" "unadvertise_service" ->
        holds_string msg "service" service ->
        lacks msg "type" ->
        decodes_to msg_str (receive_service_unadvertisement_ws service "")).
Proof.
  intros msg_str msg Hparse.
  repeat split; intros; intros h ep;
    rewrite (interpret_parsed _ _ _ _ Hparse); dispatch.
Qed.

(** ** The encoders

    The members of an object are listed in key order. *)

(** C7: with an empty id the envelope of [encode_publication_msg] has the
    three fields op = "publish", topic and msg = the converted message, and
    no "id" field; with an id that is not empty it has these three fields
    and the field id.  The frame is that envelope, serialized. *)
Theorem C7_encode_publication_envelope :
  forall (serializer : Serializer) (topic_name topic_type id : string)
         (msg : Message),
    let without_id :=
      JObject [("msg", json_convert msg); ("op", JString "publish");
               ("topic", JString topic_name)] in
    let with_id :=
      JObject [("id", JString id); ("msg", json_convert msg);
               ("op", JString "publish"); ("topic", JString topic_name)] in
    (id = "" ->
     encode_publication_output topic_name id msg = OK without_id
     /\ Json_find without_id "id" = None
     /\ encode_publication_msg serializer topic_name topic_type id msg
        = serialize serializer without_id)
    /\ (id <> "" ->
        encode_publication_output topic_name id msg = OK with_id
        /\ encode_publication_msg serializer topic_name topic_type id msg
           = serialize serializer with_id).
Proof.
  intros serializer topic_name topic_type id msg without_id with_id.
  unfold encode_publication_msg, encode_publication_output.
  split.
  - intros ->. cbn. repeat split.
  - intros Hid. destruct id as [|c id]; [now destruct Hid|]. cbn. split; reflexivity.
Qed.

(** C8: whatever the id argument is, the envelope of
    [encode_advertise_service_msg] has exactly the fields
    op = "advertise_service", service and type, and no "id" field. *)
Theorem C8_encode_advertise_service_envelope :
  forall (serializer : Serializer) (service_name service_type id : string)
         (configuration : YamlNode),
    let envelope :=
      JObject [("op", JString "advertise_service");
               ("service", JString service_name);
               ("type", JString service_type)] in
    encode_advertise_service_output service_name service_type id = OK envelope
    /\ Json_keys envelope = ["op"; "service"; "type"]
    /\ Json_find envelope "id" = None
    /\ encode_advertise_service_msg serializer service_name service_type id
         configuration
       = serialize serializer envelope.
Proof.
  intros. repeat split.
Qed.

(** C9: the envelope of [encode_service_response_msg] has
    op = "service_response", service, values = the converted response and
    result = the boolean that was given, also when it is false; it has the
    field id exactly when the id argument is not empty. *)
Theorem C9_encode_service_response_envelope :
  forall (serializer : Serializer) (service_name service_type id : string)
         (response : Message) (result : bool),
    exists envelope,
      encode_service_response_output service_name id response result
      = OK envelope
      /\ encode_service_response_msg serializer service_name service_type id
           response result
         = serialize serializer envelope
      /\ Json_find envelope "op" = Some (JString "service_response")
      /\ Json_find envelope "service" = Some (JString service_name)
      /\ Json_find envelope "values" = Some (json_convert response)
      /\ Json_find envelope "result" = Some (JBool result)
      /\ Json_find envelope "id"
         = (if empty id then None else Some (JString id))
      /\ Json_keys envelope
         = if empty id then ["op"; "result"; "service"; "values"]
           else ["id"; "op"; "result"; "service"; "values"].
Proof.
  intros.
  unfold encode_service_response_msg, encode_service_response_output.
  destruct id as [|c id]; cbn; eexists; repeat split.
Qed.

(** Every encoder builds its envelope without an exception, and the
    envelope is an object whose members are in key order. *)
Lemma encoders_build_objects :
  forall (name type id : string) (m : Message) (result : bool),
    Forall (fun output =>
              exists ms, output = OK (JObject ms) /\ members_sorted ms)
      [ encode_publication_output name id m;
        encode_service_response_output name id m result;
        encode_subscribe_output name type id;
        encode_advertise_output name type id;
        encode_call_service_output name m id;
        encode_advertise_service_output name type id ].
Proof.
  intros name type id m result.
  repeat apply Forall_cons; try apply Forall_nil;
    destruct id as [|c id]; cbn; eexists; (split; [reflexivity|]);
    repeat constructor.
Qed.

(** ** The encoders and the decoder together *)

(** [to_bson] serializes an object and no other kind of value. *)
Lemma to_bson_top_level j frame :
  to_bson j = OK frame -> exists ms, j = JObject ms.
Proof.
  destruct j; cbn; try discriminate. intros _. now eexists.
Qed.

(** The envelope of a subscription with an id. *)
Lemma encode_subscribe_output_with_id topic_name message_type id :
  id <> "" ->
  encode_subscribe_output topic_name message_type id
  = OK (JObject [("id", JString id); ("op", JString "subscribe");
                 ("topic", JString topic_name);
                 ("type", JString message_type)]).
Proof.
  intros Hid. destruct id as [|c id]; [now destruct Hid|]. reflexivity.
Qed.

(** Had the frame been read back into the envelope of [encode_subscribe_msg],
    the dispatch would make the one call of the original subscription. *)
Lemma dispatch_subscribe_envelope :
  forall (msg_str topic_name message_type id : string) (envelope : Json)
         (h : Handle) (ep : Endpoint),
    encode_subscribe_output topic_name message_type id = OK envelope ->
    dispatch_websocket_msg msg_str envelope h ep
    = (OK tt,
       (ep ++ [receive_subscribe_request_ws topic_name message_type id h])%list).
Proof.
  intros msg_str topic_name message_type id envelope h ep.
  unfold encode_subscribe_output.
  destruct id as [|c id]; cbn; intros [= <-]; dispatch.
Qed.

(** The first bytes of a BSON document are its length, so the frame that
    [to_bson] makes of an envelope is no JSON text. *)
Lemma bson_subscribe_frame :
  to_bson (JObject [("id", JString "sub1"); ("op", JString "subscribe");
                    ("topic", JString "scan");
                    ("type", JString "sensor_msgs/LaserScan")])
  = OK (String "T" (String zero (String zero (String zero
         (String (ascii_of_nat 2) ("id" ++ String zero
           (String (ascii_of_nat 5) (String zero (String zero (String zero
             ("sub1" ++ String zero
         (String (ascii_of_nat 2) ("op" ++ String zero
           (String (ascii_of_nat 10) (String zero (String zero (String zero
             ("subscribe" ++ String zero
         (String (ascii_of_nat 2) ("topic" ++ String zero
           (String (ascii_of_nat 5) (String zero (String zero (String zero
             ("scan" ++ String zero
         (String (ascii_of_nat 2) ("type" ++ String zero
           (String (ascii_of_nat 22) (String zero (String zero (String zero
             ("sensor_msgs/LaserScan" ++ String zero
         (String zero EmptyString))))))))))))))))))))))))))))))))).
Proof. vm_compute. reflexivity. Qed.

(** C6: the frame that [encode_subscribe_msg] makes with the binary codec
    for ("scan", "sensor_msgs/LaserScan", "sub1") is refused by
    [interpret_websocket_msg] with a parse error and the endpoint receives no
    call: line 85 reads every frame as JSON text and never calls the
    [deserialize] of the serializer. *)
Theorem C6_bson_subscribe_frame_is_refused :
  forall (from_bson : string -> Result Json) (configuration : YamlNode)
         (h : Handle) (ep : Endpoint),
    rejects_non_json Json_parse ->
    exists frame,
      encode_subscribe_msg (BsonSerializer from_bson)
        "scan" "sensor_msgs/LaserScan" "sub1" configuration = OK frame
      /\ interpret_websocket_msg frame h ep = (Throw (parse_error 101), ep).
Proof.
  intros from_bson configuration h ep Hrejects.
  unfold encode_subscribe_msg.
  rewrite encode_subscribe_output_with_id by discriminate.
  cbn [Result_bind serialize BsonSerializer].
  rewrite bson_subscribe_frame.
  eexists; split; [reflexivity|].
  apply interpret_not_parsed, Hrejects. reflexivity.
Qed.

(** ** More on the encoders *)

(** X1: the envelope of [encode_subscribe_msg] has op = "subscribe", the
    topic and the type (also an empty type), and the field id exactly when
    the id is not empty; the configuration leaves no trace, and the frame is
    that envelope, serialized. *)
Theorem encode_subscribe_envelope :
  forall (serializer : Serializer) (topic_name message_type id : string)
         (configuration : YamlNode),
    exists envelope,
      encode_subscribe_output topic_name message_type id = OK envelope
      /\ encode_subscribe_msg serializer topic_name message_type id
           configuration
         = serialize serializer envelope
      /\ Json_find envelope "op" = Some (JString "subscribe")
      /\ Json_find envelope "topic" = Some (JString topic_name)
      /\ Json_find envelope "type" = Some (JString message_type)
      /\ Json_find envelope "id"
         = (if empty id then None else Some (JString id))
      /\ Json_keys envelope
         = if empty id then ["op"; "topic"; "type"]
           else ["id"; "op"; "topic"; "type"].
Proof.
  intros.
  unfold encode_subscribe_msg, encode_subscribe_output.
  destruct id as [|c id]; cbn; eexists; repeat split.
Qed.

(** X2: the envelope of [encode_advertise_msg] has op = "advertise", the
    topic and the type, and the field id exactly when the id is not empty;
    the frame is that envelope, serialized. *)
Theorem encode_advertise_envelope :
  forall (serializer : Serializer) (topic_name message_type id : string)
         (configuration : YamlNode),
    exists envelope,
      encode_advertise_output topic_name message_type id = OK envelope
      /\ encode_advertise_msg serializer topic_name message_type id
           configuration
         = serialize serializer envelope
      /\ Json_find envelope "op" = Some (JString "advertise")
      /\ Json_find envelope "topic" = Some (JString topic_name)
      /\ Json_find envelope "type" = Some (JString message_type)
      /\ Json_find envelope "id"
         = (if empty id then None else Some (JString id))
      /\ Json_keys envelope
         = if empty id then ["op"; "topic"; "type"]
           else ["id"; "op"; "topic"; "type"].
Proof.
  intros.
  unfold encode_advertise_msg, encode_advertise_output.
  destruct id as [|c id]; cbn; eexists; repeat split.
Qed.

(** X3: the envelope of [encode_call_service_msg] has op = "call_service",
    the service, args = the converted request, and the field id exactly when
    the id is not empty; the service type is not in it, and the frame is that
    envelope, serialized. *)
Theorem encode_call_service_envelope :
  forall (serializer : Serializer) (service_name service_type id : string)
         (service_request : Message) (configuration : YamlNode),
    exists envelope,
      encode_call_service_output service_name service_request id = OK envelope
      /\ encode_call_service_msg serializer service_name service_type
           service_request id configuration
         = serialize serializer envelope
      /\ Json_find envelope "op" = Some (JString "call_service")
      /\ Json_find envelope "service" = Some (JString service_name)
      /\ Json_find envelope "args" = Some (json_convert service_request)
      /\ Json_find envelope "id"
         = (if empty id then None else Some (JString id))
      /\ Json_keys envelope
         = if empty id then ["args"; "op"; "service"]
           else ["args"; "id"; "op"; "service"].
Proof.
  intros.
  unfold encode_call_service_msg, encode_call_service_output.
  destruct id as [|c id]; cbn; eexists; repeat split.
Qed.

(** X4: whatever the arguments, each of the six encoders builds an object
    that has one op code, one of the nine that the decoder knows, and no
    member outside the nine field names. *)
Theorem encoders_keep_to_the_vocabulary :
  forall (name type id : string) (m : Message) (result : bool),
    Forall (fun output =>
              exists ms op,
                output = OK (JObject ms)
                /\ members_find "op" ms = Some (JString op)
                /\ In op recognized_ops
                /\ incl (map fst ms) encoder_fields)
      [ encode_publication_output name id m;
        encode_service_response_output name id m result;
        encode_subscribe_output name type id;
        encode_advertise_output name type id;
        encode_call_service_output name m id;
        encode_advertise_service_output name type id ].
Proof.
  intros name type id m result.
  repeat apply Forall_cons; try apply Forall_nil;
    destruct id as [|c id]; cbn; do 2 eexists;
    (split; [reflexivity|]); (split; [reflexivity|]);
    (split; [unfold recognized_ops; simpl; tauto|]);
    intros k Hk; unfold encoder_fields; simpl in *; tauto.
Qed.

(** X5: what an encoder has put into an envelope, the decoder reads out of
    it.  A frame that is parsed into the envelope of an encoder is decoded
    into the call of the same event with the same names and the same id; the
    message passes through both conversions.  The id of a publication and the
    result flag of a service response are not handed to the endpoint. *)
Theorem encoded_envelopes_are_decoded :
  forall (msg_str : string) (envelope : Json),
    Json_parse msg_str = OK envelope ->
    (forall topic id m,
        encode_publication_output topic id m = OK envelope ->
        decodes_to msg_str
          (receive_publication_ws topic (json_convert_message (json_convert m))))
    /\ (forall service id m result,
        encode_service_response_output service id m result = OK envelope ->
        decodes_to msg_str
          (receive_service_response_ws service
             (json_convert_message (json_convert m)) id))
    /\ (forall topic type id,
        encode_subscribe_output topic type id = OK envelope ->
        decodes_to msg_str (receive_subscribe_request_ws topic type id))
    /\ (forall topic type id,
        encode_advertise_output topic type id = OK envelope ->
        decodes_to msg_str (receive_topic_advertisement_ws topic type id))
    /\ (forall service m id,
        encode_call_service_output service m id = OK envelope ->
        decodes_to msg_str
          (receive_service_request_ws service
             (json_convert_message (json_convert m)) id))
    /\ (forall service type id,
        encode_advertise_service_output service type id = OK envelope ->
        decodes_to msg_str (receive_service_advertisement_ws service type)).
Proof.
  intros msg_str envelope Hparse.
  repeat apply conj; intros *;
    unfold encode_publication_output, encode_service_response_output,
      encode_subscribe_output, encode_advertise_output,
      encode_call_service_output, encode_advertise_service_output;
    destruct id as [|c id]; cbn; intros [= <-] h ep;
    rewrite (interpret_parsed _ _ _ _ Hparse); dispatch.
Qed.

(** ** More on the decoder *)

(** The three getters: what they return for a field that is absent and for
    a field that is present. *)
Lemma get_required_string_cases msg key :
  (exists v, get_required_string msg key = OK v)
  \/ get_required_string msg key = Throw (type_error 302)
  \/ (lacks msg key
      /\ get_required_string msg key = Throw (MissingRequiredField key)).
Proof.
  unfold get_required_string, throw_missing_key, lacks.
  destruct (Json_find msg key) as [[]|]; cbn; eauto.
Qed.

Lemma get_required_msg_cases msg key :
  (exists v, get_required_msg msg key = OK v)
  \/ (lacks msg key
      /\ get_required_msg msg key = Throw (MissingRequiredField key)).
Proof.
  unfold get_required_msg, throw_missing_key, lacks.
  destruct (Json_find msg key); eauto.
Qed.

Lemma get_optional_string_cases msg key :
  (exists v, get_optional_string msg key = OK v)
  \/ get_optional_string msg key = Throw (type_error 302).
Proof.
  unfold get_optional_string.
  destruct (Json_find msg key) as [[]|]; cbn; eauto.
Qed.

Ltac split_getters :=
  repeat match goal with
         | |- context [get_required_string ?m ?k] =>
             destruct (get_required_string_cases m k)
               as [[? ->] | [-> | [? ->]]]
         | |- context [get_required_msg ?m ?k] =>
             destruct (get_required_msg_cases m k) as [[? ->] | [? ->]]
         | |- context [get_optional_string ?m ?k] =>
             destruct (get_optional_string_cases m k) as [[? ->] | ->]
         end.

Ltac split_ops s :=
  destruct (String.eqb_spec s JsonOpPublishKey);
  [|destruct (String.eqb_spec s JsonOpServiceRequestKey);
  [|destruct (String.eqb_spec s JsonOpServiceResponseKey);
  [|destruct (String.eqb_spec s JsonOpAdvertiseTopicKey);
  [|destruct (String.eqb_spec s JsonOpUnadvertiseTopicKey);
  [|destruct (String.eqb_spec s JsonOpSubscribeKey);
  [|destruct (String.eqb_spec s JsonOpUnsubscribeKey);
  [|destruct (String.eqb_spec s JsonOpAdvertiseServiceKey);
  [|destruct (String.eqb_spec s JsonOpUnadvertiseServiceKey)]]]]]]]].


(** X7: when [interpret_websocket_msg] returns, the "op" field of the frame
    held a string.  If that string is one of the nine op codes, exactly one
    call was made, the method of that op code, with the connection handle;
    if it is not, no call was made.  So no method is ever called for a frame
    of another op code. *)
Theorem interpret_success_names_the_op :
  forall (msg_str : string) (msg : Json) (h : Handle) (ep ep' : Endpoint),
    Json_parse msg_str = OK msg ->
    interpret_websocket_msg msg_str h ep = (OK tt, ep') ->
    exists op,
      Json_find msg "op" = Some (JString op)
      /\ ((In op recognized_ops
           /\ exists c, ep' = (ep ++ [c])%list
                        /\ call_op c = op /\ call_handle c = h)
          \/ (~ In op recognized_ops /\ ep' = ep)).
Proof using Json_parse argument_order json_convert_message.
  clear json_convert.
  intros msg_str msg h ep ep' Hparse.
  rewrite (interpret_parsed _ _ _ _ Hparse).
  unfold dispatch_websocket_msg, Action_bind, lift. unfold_keys.
  destruct (Json_find msg "op") as [[]|]; cbn [Json_get_string];
    try discriminate.
  split_ops s;
    unfold eval_args2, eval_args3, invoke, Action_ret;
    try (destruct argument_order; split_getters; cbn;
         intros [= <-]; subst s; eexists; (split; [reflexivity|]); left;
         (split; [unfold recognized_ops; simpl; tauto|]);
         eexists; repeat split).
  intros [= <-]. eexists; split; [reflexivity|]. right. split; [|reflexivity].
  unfold recognized_ops. simpl. intuition congruence.
Qed.


Lemma get_required_string_lacks msg key :
  lacks msg key ->
  get_required_string msg key = Throw (MissingRequiredField key).
Proof.
  unfold lacks, get_required_string, throw_missing_key. now intros ->.
Qed.

Lemma get_required_msg_lacks msg key :
  lacks msg key ->
  get_required_msg msg key = Throw (MissingRequiredField key).
Proof.
  unfold lacks, get_required_msg, throw_missing_key. now intros ->.
Qed.

(** X9: a frame that lacks a field its op code requires never reaches the
    endpoint, whatever else it holds and in whatever order the arguments are
    evaluated: the call throws, either the type error of another field or the
    missing-field error of a required field that is indeed absent. *)
Theorem missing_required_field_is_refused :
  forall (msg_str : string) (msg : Json) (op key : string)
         (h : Handle) (ep : Endpoint),
    Json_parse msg_str = OK msg ->
    holds_string msg "op" op ->
    In key (required_fields op) ->
    lacks msg key ->
    exists e,
      interpret_websocket_msg msg_str h ep = (Throw e, ep)
      /\ (e = type_error 302
          \/ exists k, In k (required_fields op) /\ lacks msg k
                       /\ e = MissingRequiredField k).
Proof using Json_parse argument_order json_convert_message.
  clear json_convert.
  intros msg_str msg op key h ep Hparse Hop Hin Hlacks.
  rewrite (interpret_parsed _ _ _ _ Hparse).
  unfold dispatch_websocket_msg, Action_bind, lift.
  unfold holds_string in Hop. unfold_keys. rewrite Hop.
  cbn [Json_get_string].
  revert Hin. unfold required_fields.
  split_ops op; try subst op; cbn [In]; intros Hin;
    repeat (destruct Hin as [Hin | Hin]; [subst key|]); try contradiction;
    unfold eval_args2, eval_args3; unfold_keys;
    try rewrite (get_required_string_lacks _ _ Hlacks);
    try rewrite (get_required_msg_lacks _ _ Hlacks);
    destruct argument_order; split_getters; cbn;
    eexists; (split; [reflexivity|]);
    first [ left; reflexivity
          | right; refine (ex_intro _ _ (conj _ (conj _ eq_refl)));
            [cbn; tauto | assumption] ].
Qed.

(** X10: the table of the optional fields.  For each of the seven op codes
    that have optional fields, a frame with the required fields is decoded
    into one call in which each optional field is the string the frame holds
    for it, or the empty string when the frame has no such field. *)
Theorem optional_fields_are_forwarded :
  forall (msg_str : string) (msg : Json),
    Json_parse msg_str = OK msg ->
    (forall service args id,
        holds_string msg "op" "call_service" ->
        holds_string msg "service" service ->
        Json_find msg "args" = Some args ->
        field_or_empty msg "id" id ->
        decodes_to msg_str
          (receive_service_request_ws service (json_convert_message args) id))
    /\ (forall service values id,
        holds_string msg "op" "service_response" ->
        holds_string msg "service" service ->
        Json_find msg "values" = Some values ->
        field_or_empty msg "id" id ->
        decodes_to msg_str
          (receive_service_response_ws service (json_convert_message values) id))
    /\ (forall topic type id,
        holds_string msg "op" "advertise" ->
        holds_string msg "topic" topic ->
        holds_string msg "type" type ->
        field_or_empty msg "id" id ->
        decodes_to msg_str (receive_topic_advertisement_ws topic type id))
    /\ (forall topic id,
        holds_string msg "op" "unadvertise" ->
        holds_string msg "topic" topic ->
        field_or_empty msg "id" id ->
        decodes_to msg_str (receive_topic_unadvertisement_ws topic id))
    /\ (forall topic type id,
        holds_string msg "op" "subscribe" ->
        holds_string msg "topic" topic ->
        field_or_empty msg "type" type ->
        field_or_empty msg "id" id ->
        decodes_to msg_str (receive_subscribe_request_ws topic type id))
    /\ (forall topic id,
        holds_string msg "op" "unsubscribe" ->
        holds_string msg "topic" topic ->
        field_or_empty msg "id" id ->
        decodes_to msg_str (receive_unsubscribe_request_ws topic id))
    /\ (forall service type,
        holds_string msg "op" "unadvertise_service" ->
        holds_string msg "service" service ->
        field_or_empty msg "type" type ->
        decodes_to msg_str (receive_service_unadvertisement_ws service type)).
Proof.
  intros msg_str msg Hparse.
  repeat apply conj; intros; intros h ep;
    rewrite (interpret_parsed _ _ _ _ Hparse);
    repeat match goal with
           | H : field_or_empty _ _ _ |- _ => destruct H as [[? ->] | ?]
           end;
    dispatch.
Qed.

(** X11: when a frame lacks both required fields of its op code, the field
    that the exception names is the first argument if the arguments are
    evaluated from the left and the second if they are evaluated from the
    right. *)
Theorem two_missing_fields_depend_on_order :
  forall (msg_str : string) (msg : Json) (h : Handle) (ep : Endpoint),
    Json_parse msg_str = OK msg ->
    (holds_string msg "op" "publish" ->
     lacks msg "topic" -> lacks msg "msg" ->
     (argument_order = LeftToRight ->
      interpret_websocket_msg msg_str h ep
      = (Throw (MissingRequiredField "topic"), ep))
     /\ (argument_order = RightToLeft ->
         interpret_websocket_msg msg_str h ep
         = (Throw (MissingRequiredField "msg"), ep)))
    /\ (holds_string msg "op" "advertise_service" ->
        lacks msg "service" -> lacks msg "type" ->
        (argument_order = LeftToRight ->
         interpret_websocket_msg msg_str h ep
         = (Throw (MissingRequiredField "service"), ep))
        /\ (argument_order = RightToLeft ->
            interpret_websocket_msg msg_str h ep
            = (Throw (MissingRequiredField "type"), ep))).
Proof.
  intros msg_str msg h ep Hparse.
  rewrite (interpret_parsed _ _ _ _ Hparse).
  split; intros Hop H1 H2; split; intros Horder;
    unfold dispatch_websocket_msg, Action_bind, lift, eval_args2,
      get_required_string, get_required_msg, throw_missing_key;
    use_fields; rewrite Horder; reflexivity.
Qed.

(** The frame text is used only for the text of the missing-op-code
    error. *)
Lemma dispatch_with_op_code msg_str msg_str' msg v h ep :
  Json_find msg "op" = Some v ->
  dispatch_websocket_msg msg_str msg h ep
  = dispatch_websocket_msg msg_str' msg h ep.
Proof using argument_order json_convert_message.
  clear json_convert Json_parse.
  intros Hop. unfold dispatch_websocket_msg. unfold_keys. now rewrite Hop.
Qed.

(** The dispatch looks at the eight fields of [decoder_fields] and at
    nothing else in the frame. *)
Lemma dispatch_reads_decoder_fields msg msg' msg_str h ep :
  (forall k, In k decoder_fields -> Json_find msg' k = Json_find msg k) ->
  dispatch_websocket_msg msg_str msg' h ep
  = dispatch_websocket_msg msg_str msg h ep.
Proof using argument_order json_convert_message.
  clear json_convert Json_parse.
  intros Hsame.
  assert (Hfind : forall k, In k decoder_fields ->
                            Json_find msg' k = Json_find msg k) by exact Hsame.
  unfold decoder_fields in Hfind. cbn [In] in Hfind.
  unfold dispatch_websocket_msg, get_required_string, get_required_msg,
    get_optional_string.
  rewrite !(Hfind JsonOpKey), !(Hfind JsonTopicNameKey), !(Hfind JsonMsgKey),
    !(Hfind JsonServiceKey), !(Hfind JsonArgsKey), !(Hfind JsonIdKey),
    !(Hfind JsonValuesKey), !(Hfind JsonTypeNameKey) by tauto.
  reflexivity.
Qed.

(** X12: fields outside the eight that the decoder looks up are ignored.
    If one frame parses into a value with an op code and another frame
    parses into that value with one more assignment [msg[key] = v], for a
    key that is none of op, topic, msg, service, args, id, values and type,
    then the two frames are decoded alike: the same result and the same
    call. *)
Theorem unread_field_is_ignored :
  forall (msg_str msg_str' : string) (msg msg' op_value v : Json)
         (key : string) (h : Handle) (ep : Endpoint),
    Json_parse msg_str = OK msg ->
    Json_parse msg_str' = OK msg' ->
    Json_find msg "op" = Some op_value ->
    ~ In key decoder_fields ->
    Json_assign msg key v = OK msg' ->
    interpret_websocket_msg msg_str' h ep = interpret_websocket_msg msg_str h ep.
Proof using Json_parse argument_order json_convert_message.
  clear json_convert.
  intros msg_str msg_str' msg msg' op_value v key h ep
    Hparse Hparse' Hop Hkey Hassign.
  rewrite (interpret_parsed _ _ _ _ Hparse), (interpret_parsed _ _ _ _ Hparse').
  rewrite (dispatch_with_op_code msg_str msg_str' msg op_value h ep Hop).
  apply dispatch_reads_decoder_fields.
  intros k Hk. apply (Json_assign_find_other _ _ _ _ _ Hassign).
  intros ->. exact (Hkey Hk).
Qed.

End RosbridgeV2Encoding.

Arguments interpret_websocket_msg {Message Handle} json_convert_message
  Json_parse argument_order msg_str connection_handle _.
Arguments receive_publication_ws {Message Handle} topic msg h.
Arguments receive_service_request_ws {Message Handle} service args id h.
Arguments receive_service_response_ws {Message Handle} service values id h.
Arguments receive_topic_advertisement_ws {Message Handle} topic type id h.
Arguments receive_topic_unadvertisement_ws {Message Handle} topic id h.
Arguments receive_subscribe_request_ws {Message Handle} topic type id h.
Arguments receive_unsubscribe_request_ws {Message Handle} topic id h.
Arguments receive_service_advertisement_ws {Message Handle} service type h.
Arguments receive_service_unadvertisement_ws {Message Handle} service type h.
Arguments encode_publication_output {Message} json_convert topic_name id msg.
Arguments encode_publication_msg {Message} json_convert serializer
  topic_name topic_type id msg.
Arguments encode_subscribe_msg {YamlNode} serializer topic_name message_type
  id configuration.

(** ** The theorems on the sample frames

    The message type is the structured value itself, the conversion is the
    identity, a connection handle is a number and the reader of JSON text is
    the table [sample_frames]. *)

Lemma sample_frames_look_like_json_text s j :
  members_find s sample_frames = Some j -> looks_like_json_text s = true.
Proof.
  unfold sample_frames. cbn [members_find].
  repeat match goal with
         | |- (if String.eqb s ?k then _ else _) = _ -> _ =>
             destruct (String.eqb_spec s k) as [-> | _];
             [intros _; vm_compute; reflexivity|]
         end.
  discriminate.
Qed.

Lemma sample_parse_rejects_non_json : rejects_non_json sample_parse.
Proof.
  intros s Hs. unfold sample_parse.
  destruct (members_find s sample_frames) as [j|] eqn:Hfind; [|reflexivity].
  apply sample_frames_look_like_json_text in Hfind. congruence.
Qed.

(** C2 on a frame without op code and on a frame that is no object. *)
Lemma C2_missing_op_code_witness :
  interpret_websocket_msg (fun j : Json => j) sample_parse LeftToRight
    (json_text "{'topic':'chatter'}") 7 []
  = (Throw (MissingOpCode (json_text "{'topic':'chatter'}")), [])
  /\ interpret_websocket_msg (fun j : Json => j) sample_parse RightToLeft
       (json_text "[1,2]") 7 []
     = (Throw (MissingOpCode (json_text "[1,2]")), []).
Proof.
  split.
  - apply (C2_missing_op_code Json nat (fun j => j) sample_parse LeftToRight
             (json_text "{'topic':'chatter'}")
             (JObject [("topic", JString "chatter")]) 7 []);
      reflexivity.
  - apply (C2_missing_op_code Json nat (fun j => j) sample_parse RightToLeft
             (json_text "[1,2]") (JArray [JUInt 1; JUInt 2]) 7 []);
      reflexivity.
Defined.

(** C3 on a frame with the op string "ping". *)
Lemma C3_unknown_op_ignored_witness :
  interpret_websocket_msg (fun j : Json => j) sample_parse LeftToRight
    (json_text "{'op':'ping'}") 7 []
  = (OK tt, []).
Proof.
  apply (C3_unknown_op_ignored Json nat (fun j => j) sample_parse LeftToRight
           (json_text "{'op':'ping'}") (JObject [("op", JString "ping")])
           "ping" 7 []).
  - reflexivity.
  - reflexivity.
  - unfold recognized_ops. simpl. intros H.
    repeat (destruct H as [H | H]; [discriminate H|]). exact H.
Defined.

(** C4 on a publish frame with a topic and no message. *)
Lemma C4_publish_without_msg_witness :
  interpret_websocket_msg (fun j : Json => j) sample_parse LeftToRight
    (json_text "{'op':'publish','topic':'chatter'}") 7 []
  = (Throw (MissingRequiredField "msg"), []).
Proof.
  apply (C4_publish_without_msg Json nat (fun j => j) sample_parse LeftToRight
           (json_text "{'op':'publish','topic':'chatter'}")
           (JObject [("op", JString "publish"); ("topic", JString "chatter")])
           "chatter" 7 []);
    reflexivity.
Defined.

(** C10 on a frame whose op code is the number 7. *)
Lemma C10_op_not_a_string_witness :
  interpret_websocket_msg (fun j : Json => j) sample_parse LeftToRight
    (json_text "{'op':7,'topic':'chatter'}") 7 []
  = (Throw (type_error 302), []).
Proof.
  apply (C10_op_not_a_string Json nat (fun j => j) sample_parse LeftToRight
           (json_text "{'op':7,'topic':'chatter'}")
           (JObject [("op", JUInt 7); ("topic", JString "chatter")])
           (JUInt 7) 7 []).
  - reflexivity.
  - reflexivity.
  - intros s H. discriminate H.
Defined.

(** C1 on one frame for each of the nine op strings. *)
Lemma C1_required_fields_give_one_call_witness :
  let run frame :=
    interpret_websocket_msg (fun j : Json => j) sample_parse LeftToRight
      (json_text frame) 7 [] in
  run "{'op':'publish','topic':'chatter','msg':{'data':'hello'}}"
  = (OK tt, [receive_publication_ws "chatter"
               (JObject [("data", JString "hello")]) 7])
  /\ run "{'op':'call_service','service':'add_two_ints','args':{'a':1,'b':2}}"
     = (OK tt, [receive_service_request_ws "add_two_ints"
                  (JObject [("a", JUInt 1); ("b", JUInt 2)]) "" 7])
  /\ run "{'op':'service_response','service':'add_two_ints','values':{'sum':3}}"
     = (OK tt, [receive_service_response_ws "add_two_ints"
                  (JObject [("sum", JUInt 3)]) "" 7])
  /\ run "{'op':'advertise','topic':'chatter','type':'std_msgs/String'}"
     = (OK tt, [receive_topic_advertisement_ws "chatter" "std_msgs/String" "" 7])
  /\ run "{'op':'unadvertise','topic':'chatter'}"
     = (OK tt, [receive_topic_unadvertisement_ws "chatter" "" 7])
  /\ run "{'op':'subscribe','topic':'scan'}"
     = (OK tt, [receive_subscribe_request_ws "scan" "" "" 7])
  /\ run "{'op':'unsubscribe','topic':'scan'}"
     = (OK tt, [receive_unsubscribe_request_ws "scan" "" 7])
  /\ run "{'op':'advertise_service','service':'add_two_ints','type':'my_pkg/AddTwoInts'}"
     = (OK tt, [receive_service_advertisement_ws "add_two_ints"
                  "my_pkg/AddTwoInts" 7])
  /\ run "{'op':'unadvertise_service','service':'add_two_ints'}"
     = (OK tt, [receive_service_unadvertisement_ws "add_two_ints" "" 7]).
Proof.
  intros run. subst run. cbv beta.
  pose (table := fun frame msg =>
    C1_required_fields_give_one_call Json nat (fun j => j) sample_parse
      LeftToRight (json_text frame) msg).
  repeat apply conj;
    lazymatch goal with
    | |- interpret_websocket_msg _ _ _ (json_text ?frame) _ _ = _ =>
        let parsed := eval vm_compute in (sample_parse (json_text frame)) in
        lazymatch parsed with
        | OK ?msg =>
            pose proof (table frame msg eq_refl)
              as (P1 & P2 & P3 & P4 & P5 & P6 & P7 & P8 & P9)
        end
    end.
  - refine (P1 _ _ _ _ _ 7 []); reflexivity.
  - refine (P2 _ _ _ _ _ _ 7 []); reflexivity.
  - refine (P3 _ _ _ _ _ _ 7 []); reflexivity.
  - refine (P4 _ _ _ _ _ _ 7 []); reflexivity.
  - refine (P5 _ _ _ _ 7 []); reflexivity.
  - refine (P6 _ _ _ _ _ 7 []); reflexivity.
  - refine (P7 _ _ _ _ 7 []); reflexivity.
  - refine (P8 _ _ _ _ _ 7 []); reflexivity.
  - refine (P9 _ _ _ _ 7 []); reflexivity.
Defined.

(** C6 with a [deserialize] that would return the envelope: it is never
    called. *)
Lemma C6_bson_subscribe_frame_is_refused_witness :
  exists frame,
    encode_subscribe_msg
      (BsonSerializer (fun _ =>
         OK (JObject [("id", JString "sub1"); ("op", JString "subscribe");
                      ("topic", JString "scan");
                      ("type", JString "sensor_msgs/LaserScan")])))
      "scan" "sensor_msgs/LaserScan" "sub1" tt = OK frame
    /\ interpret_websocket_msg (fun j : Json => j) sample_parse LeftToRight
         frame 7 []
       = (Throw (parse_error 101), []).
Proof.
  exact (C6_bson_subscribe_frame_is_refused Json nat unit (fun j => j)
           sample_parse LeftToRight _ tt 7 []
           sample_parse_rejects_non_json).
Defined.

(** C7 for the topic "chatter", without an id and with the id "42". *)
Lemma C7_encode_publication_envelope_witness :
  encode_publication_output (fun j : Json => j) "chatter" ""
    (JObject [("data", JString "hello")])
  = OK (JObject [("msg", JObject [("data", JString "hello")]);
                 ("op", JString "publish"); ("topic", JString "chatter")])
  /\ encode_publication_output (fun j : Json => j) "chatter" "42"
       (JObject [("data", JString "hello")])
     = OK (JObject [("id", JString "42");
                    ("msg", JObject [("data", JString "hello")]);
                    ("op", JString "publish"); ("topic", JString "chatter")]).
Proof.
  split.
  - refine (proj1 (proj1 (C7_encode_publication_envelope Json (fun j => j)
              (BsonSerializer (fun _ => Throw (parse_error 110)))
              "chatter" "std_msgs/String" "" _) eq_refl)).
  - refine (proj1 (proj2 (C7_encode_publication_envelope Json (fun j => j)
              (BsonSerializer (fun _ => Throw (parse_error 110)))
              "chatter" "std_msgs/String" "42" _) _)).
    discriminate.
Defined.

Arguments call_op {Message Handle} c.
Arguments call_handle {Message Handle} c.

(** ** The further theorems on the sample frames *)

(** X5 on the text of the subscription ("scan", "sensor_msgs/LaserScan",
    "sub1"). *)
Lemma encoded_envelopes_are_decoded_witness :
  interpret_websocket_msg (fun j : Json => j) sample_parse LeftToRight
    (json_text "{'op':'subscribe','topic':'scan','type':'sensor_msgs/LaserScan','id':'sub1'}")
    7 []
  = (OK tt, [receive_subscribe_request_ws "scan" "sensor_msgs/LaserScan" "sub1" 7]).
Proof.
  pose proof (encoded_envelopes_are_decoded Json nat (fun j => j) (fun j => j)
                sample_parse LeftToRight
                (json_text "{'op':'subscribe','topic':'scan','type':'sensor_msgs/LaserScan','id':'sub1'}")
                (JObject [("id", JString "sub1"); ("op", JString "subscribe");
                          ("topic", JString "scan");
                          ("type", JString "sensor_msgs/LaserScan")])
                eq_refl) as (_ & _ & Hsubscribe & _).
  refine (Hsubscribe "scan" "sensor_msgs/LaserScan" "sub1" _ 7 []).
  reflexivity.
Defined.

(** X7 on the publish frame: the one call is that of "publish". *)
Lemma interpret_success_names_the_op_witness :
  exists op,
    Json_find
      (JObject [("msg", JObject [("data", JString "hello")]);
                ("op", JString "publish"); ("topic", JString "chatter")])
      "op" = Some (JString op)
    /\ ((In op recognized_ops
         /\ exists c : EndpointCall Json nat,
             [receive_publication_ws "chatter"
                (JObject [("data", JString "hello")]) 7]
             = ([] ++ [c])%list
             /\ call_op c = op /\ call_handle c = 7)
        \/ (~ In op recognized_ops
            /\ [receive_publication_ws "chatter"
                  (JObject [("data", JString "hello")]) 7] = [])).
Proof.
  apply (interpret_success_names_the_op Json nat (fun j => j) sample_parse
           LeftToRight
           (json_text "{'op':'publish','topic':'chatter','msg':{'data':'hello'}}")
           _ 7 []);
    reflexivity.
Defined.


(** X9 on the publish frame without a message. *)
Lemma missing_required_field_is_refused_witness :
  let msg := JObject [("op", JString "publish"); ("topic", JString "chatter")] in
  exists e,
    interpret_websocket_msg (fun j : Json => j) sample_parse LeftToRight
      (json_text "{'op':'publish','topic':'chatter'}") 7 []
    = (Throw e, [])
    /\ (e = type_error 302
        \/ exists k, In k (required_fields "publish") /\ lacks msg k
                     /\ e = MissingRequiredField k).
Proof.
  apply (missing_required_field_is_refused Json nat (fun j => j) sample_parse
           LeftToRight
           (json_text "{'op':'publish','topic':'chatter'}")
           (JObject [("op", JString "publish"); ("topic", JString "chatter")])
           "publish" "msg" 7 []).
  - reflexivity.
  - reflexivity.
  - simpl. tauto.
  - reflexivity.
Defined.

(** X10 on a subscription with a type and an id, and on one with neither. *)
Lemma optional_fields_are_forwarded_witness :
  interpret_websocket_msg (fun j : Json => j) sample_parse LeftToRight
    (json_text "{'op':'subscribe','topic':'scan','type':'sensor_msgs/LaserScan','id':'sub1'}")
    7 []
  = (OK tt, [receive_subscribe_request_ws "scan" "sensor_msgs/LaserScan" "sub1" 7])
  /\ interpret_websocket_msg (fun j : Json => j) sample_parse RightToLeft
       (json_text "{'op':'subscribe','topic':'scan'}") 7 []
     = (OK tt, [receive_subscribe_request_ws "scan" "" "" 7]).
Proof.
  split.
  - pose proof (optional_fields_are_forwarded Json nat (fun j => j)
                  sample_parse LeftToRight
                  (json_text "{'op':'subscribe','topic':'scan','type':'sensor_msgs/LaserScan','id':'sub1'}")
                  (JObject [("id", JString "sub1"); ("op", JString "subscribe");
                            ("topic", JString "scan");
                            ("type", JString "sensor_msgs/LaserScan")])
                  eq_refl) as (_ & _ & _ & _ & Hsubscribe & _).
    refine (Hsubscribe "scan" "sensor_msgs/LaserScan" "sub1" _ _ _ _ 7 []);
      solve [reflexivity | right; reflexivity].
  - pose proof (optional_fields_are_forwarded Json nat (fun j => j)
                  sample_parse RightToLeft
                  (json_text "{'op':'subscribe','topic':'scan'}")
                  (JObject [("op", JString "subscribe"); ("topic", JString "scan")])
                  eq_refl) as (_ & _ & _ & _ & Hsubscribe & _).
    refine (Hsubscribe "scan" "" "" _ _ _ _ 7 []);
      solve [reflexivity | left; split; reflexivity].
Defined.

(** X11 on the frame that holds the op code "publish" and nothing else. *)
Lemma two_missing_fields_depend_on_order_witness :
  interpret_websocket_msg (fun j : Json => j) more_parse LeftToRight
    (json_text "{'op':'publish'}") 7 []
  = (Throw (MissingRequiredField "topic"), [])
  /\ interpret_websocket_msg (fun j : Json => j) more_parse RightToLeft
       (json_text "{'op':'publish'}") 7 []
     = (Throw (MissingRequiredField "msg"), []).
Proof.
  split.
  - refine (proj1 (proj1 (two_missing_fields_depend_on_order Json nat
              (fun j => j) more_parse LeftToRight
              (json_text "{'op':'publish'}")
              (JObject [("op", JString "publish")]) 7 [] eq_refl) _ _ _) _);
      reflexivity.
  - refine (proj2 (proj1 (two_missing_fields_depend_on_order Json nat
              (fun j => j) more_parse RightToLeft
              (json_text "{'op':'publish'}")
              (JObject [("op", JString "publish")]) 7 [] eq_refl) _ _ _) _);
      reflexivity.
Defined.

(** X12 on an unsubscribe frame with and without a "compression" field. *)
Lemma unread_field_is_ignored_witness :
  interpret_websocket_msg (fun j : Json => j) more_parse LeftToRight
    (json_text "{'op':'unsubscribe','topic':'scan','compression':'none'}") 7 []
  = interpret_websocket_msg (fun j : Json => j) more_parse LeftToRight
      (json_text "{'op':'unsubscribe','topic':'scan'}") 7 [].
Proof.
  apply (unread_field_is_ignored Json nat (fun j => j) more_parse LeftToRight
           (json_text "{'op':'unsubscribe','topic':'scan'}")
           (json_text "{'op':'unsubscribe','topic':'scan','compression':'none'}")
           (JObject [("op", JString "unsubscribe"); ("topic", JString "scan")])
           (JObject [("compression", JString "none");
                     ("op", JString "unsubscribe"); ("topic", JString "scan")])
           (JString "unsubscribe") (JString "none") "compression" 7 []).
  - reflexivity.
  - reflexivity.
  - reflexivity.
  - unfold decoder_fields. simpl. intros H.
    repeat (destruct H as [H | H]; [discriminate H|]). exact H.
  - reflexivity.
Defined.
